(** * consulta-csjn: the request handler and the persistence gate of [app.py]

    A shallow embedding of [guardar_en_bd] and [index] from [app.py].
    Python strings are sequences of Unicode code points, dictionaries and
    the process environment are finite maps, and the effects of the two
    functions (log lines, database driver calls, the call of
    [consulta_cedula], flashed messages) are recorded as a trace of events
    by a small state, trace and exception monad. *)

From Stdlib Require Import ZArith NArith Ascii String.
From stdpp Require Import base option gmap strings list.

Local Open Scope list_scope.

(** ** Python strings *)

(** A Python [str] is a sequence of code points. *)
Abbreviation pystr := (list N).

(** An ASCII literal of the source, as a [str]. *)
Definition lit (s : string) : pystr :=
  map N_of_ascii (list_ascii_of_string s).

(** [str.isspace] on one code point: the code points CPython lists as
    whitespace. *)
Definition py_isspace (c : N) : bool :=
  ((9 <=? c) && (c <=? 13) || (28 <=? c) && (c <=? 32)
   || (c =? 133) || (c =? 160) || (c =? 5760)
   || (8192 <=? c) && (c <=? 8202)
   || (c =? 8232) || (c =? 8233) || (c =? 8239) || (c =? 8287)
   || (c =? 12288))%N.

Fixpoint lstrip (s : pystr) : pystr :=
  match s with
  | c :: s' => if py_isspace c then lstrip s' else s
  | [] => []
  end.

Definition rstrip (s : pystr) : pystr := rev (lstrip (rev s)).

(** [str.strip()] with no argument. *)
Definition strip (s : pystr) : pystr := rstrip (lstrip s).

(** Truth value of an [Optional[str]]: [None] and [''] are false. *)
Definition truthy (v : option pystr) : bool :=
  match v with
  | Some (_ :: _) => true
  | _ => false
  end.

(** Python's [all] over a sequence of such values. *)
Definition all (vs : list (option pystr)) : bool := forallb truthy vs.

(** ** Values, events and the environment *)

(** An exception object of class [Exception], as the driver and the
    collaborator raise them; [str(exc)] is its message. *)
Inductive exn := Exception (msg : pystr).

Definition str_exc (exc : exn) : pystr :=
  match exc with Exception msg => msg end.

(** A Python [dict] with string keys; the value [None] is Python's [None]. *)
Abbreviation dict := (gmap string (option pystr)).

(** The [cfg] dictionary of [guardar_en_bd]: four fixed keys, each holding
    what [os.environ.get] returned. *)
Record Cfg := {
  host : option pystr;
  user : option pystr;
  password : option pystr;
  database : option pystr
}.

Definition values (cfg : Cfg) : list (option pystr) :=
  [host cfg; user cfg; password cfg; database cfg].

Inductive level := INFO | WARNING | ERROR.

(** What the two functions do to the outside, in program order.  A call of
    the driver or of the collaborator is recorded when it is made, whether
    it then returns or raises. *)
Inductive event :=
| Log (lv : level) (msg : pystr) (exc_info : option exn)
| Connect (cfg : Cfg)
| CursorOpen
| Execute (sql : pystr) (params : option dict)
| Commit
| CursorClose
| ConnClose
| Query (codigo : pystr) (headless : bool) (timeout : Z)
| Flash (message category : pystr).

(** The [mysql.connector] driver as the gate sees it: for each call,
    [None] when it returns and [Some exc] when it raises [exc].  The
    driver reads the parameters of a statement and does not write to
    them. *)
Record Driver := {
  connector_connect : Cfg -> option exn;
  conn_cursor : option exn;
  cursor_execute : pystr -> option dict -> option exn;
  conn_commit : option exn;
  cursor_close : option exn;
  conn_close : option exn
}.

(** The result object of the collaborator, with the nine fields listed in
    the docstring of [guardar_en_bd]. *)
Record QueryResult := {
  codigo_de_barras : pystr;
  fuero : option pystr;
  juzgado : option pystr;
  zona : option pystr;
  fecha_ingreso : option pystr;
  fecha_asignacion_zona : option pystr;
  fecha_devolucion : option pystr;
  resultado_diligencia : option pystr;
  fecha_disposicion_juzgado : option pystr
}.

(** Modelled from the spec: the method [to_dict] of the result object,
    defined in the module [consulta_cedula] and not in [app.py].  The spec
    has the handler "convert to a plain field mapping", and the docstring
    of [guardar_en_bd] names the nine keys. *)
Definition to_dict (estado : QueryResult) : dict :=
  <["codigo_de_barras" := Some (codigo_de_barras estado)]>
  (<["fuero" := fuero estado]>
  (<["juzgado" := juzgado estado]>
  (<["zona" := zona estado]>
  (<["fecha_ingreso" := fecha_ingreso estado]>
  (<["fecha_asignacion_zona" := fecha_asignacion_zona estado]>
  (<["fecha_devolucion" := fecha_devolucion estado]>
  (<["resultado_diligencia" := resultado_diligencia estado]>
  (<["fecha_disposicion_juzgado" := fecha_disposicion_juzgado estado]>
   ∅)))))))).

(** Everything outside [app.py] that the two functions read or call:
    [os.environ], the module-level name [mysql] ([None] when the import
    failed) and the function [consulta_cedula]. *)
Record World := {
  environ : gmap string pystr;
  mysql : option Driver;
  consulta_cedula : pystr -> bool -> Z -> QueryResult + exn
}.

(** The methods under which Flask calls the view of a route declared with
    [methods=['GET', 'POST']]. *)
Inductive http_method := GET | HEAD | POST.

Record Request := {
  method : http_method;
  form : gmap string pystr
}.

(** The value [index] returns: the template and its keyword argument. *)
Inductive response :=
| render_template (template_name : pystr) (resultado : option dict).

(** ** A monad for function bodies

    A body runs from the current local variables to a trace, the local
    variables at the end, and either a value or a raised exception.  The
    local variables survive an exception, as [finally] and the code after
    a [try] statement read them. *)

Inductive outcome (A : Type) :=
| Return (a : A)
| Raise (exc : exn).
Arguments Return {A} a.
Arguments Raise {A} exc.

Definition Py (S A : Type) : Type := S -> list event * S * outcome A.

(** A whole call: what the caller observes. *)
Definition Eff (A : Type) : Type := (list event * outcome A)%type.

#[global] Instance Py_ret {S} : MRet (Py S) :=
  fun A a s => ([], s, Return a).

#[global] Instance Py_bind {S} : MBind (Py S) :=
  fun A B f m s =>
    match m s with
    | (t, s', Return a) =>
        match f a s' with (t', s'', o) => (t ++ t', s'', o) end
    | (t, s', Raise exc) => (t, s', Raise exc)
    end.

Definition emit {S} (ev : event) : Py S () :=
  fun s => ([ev], s, Return ()).

Definition get_locals {S} : Py S S :=
  fun s => ([], s, Return s).

Definition set_locals {S} (s' : S) : Py S () :=
  fun _ => ([], s', Return ()).

(** An external call: recorded, and then it returns or raises. *)
Definition extern {S} (ev : event) (result : option exn) : Py S () :=
  fun s => ([ev], s, match result with None => Return () | Some exc => Raise exc end).

(** [try: body  except Exception as exc: handler exc] *)
Definition try_except {S A} (body : Py S A) (handler : exn -> Py S A) : Py S A :=
  fun s =>
    match body s with
    | (t, s', Return a) => (t, s', Return a)
    | (t, s', Raise exc) =>
        match handler exc s' with (t', s'', o) => (t ++ t', s'', o) end
    end.

(** [try: body  finally: fin]: the [finally] block always runs; if it
    raises, its exception replaces the outcome of the body. *)
Definition try_finally {S A} (body : Py S A) (fin : Py S ()) : Py S A :=
  fun s =>
    match body s with
    | (t, s', o) =>
        match fin s' with
        | (t', s'', Return _) => (t ++ t', s'', o)
        | (t', s'', Raise exc) => (t ++ t', s'', Raise exc)
        end
    end.

(** Calling a function from a body: its trace and outcome, the caller's
    local variables untouched. *)
Definition call {S A} (f : Eff A) : Py S A :=
  fun s => (f.1, s, f.2).

(** Running a body as a function call with fresh local variables. *)
Definition run {S A} (body : Py S A) (s : S) : Eff A :=
  match body s with (t, _, o) => (t, o) end.

Definition logging {S} (lv : level) (msg : pystr) : Py S () :=
  emit (Log lv msg None).

(** [logging.exception]: level ERROR, with the exception being handled. *)
Definition logging_exception {S} (msg : pystr) (exc : exn) : Py S () :=
  emit (Log ERROR msg (Some exc)).

Definition flash {S} (message category : pystr) : Py S () :=
  emit (Flash message category).

(** ** The persistence gate: [guardar_en_bd] *)

(** The objects bound to [conn] and [cursor]. *)
Inductive Connection := MySQLConnection.
Inductive Cursor := MySQLCursor.

(** The local variables the [finally] block looks up in [locals()];
    [None] while the name is unbound. *)
Record locals := {
  conn : option Connection;
  cursor : option Cursor
}.

Definition assign_conn (c : Connection) : Py locals () :=
  l ← get_locals; set_locals {| conn := Some c; cursor := cursor l |}.

Definition assign_cursor (c : Cursor) : Py locals () :=
  l ← get_locals; set_locals {| conn := conn l; cursor := Some c |}.

Definition spaces (n : nat) : pystr := repeat 32%N n.

Definition newline : pystr := [10%N].

(** One line of a triple-quoted literal: indentation, text, line end. *)
Definition line (indent : nat) (text : string) : pystr :=
  spaces indent ++ lit text ++ newline.

(** The f-string passed to the first [cursor.execute]. *)
Definition create_table_sql (tabla : pystr) : pystr :=
  newline
  ++ spaces 12 ++ lit "CREATE TABLE IF NOT EXISTS " ++ tabla ++ lit " (" ++ newline
  ++ line 16 "id INT AUTO_INCREMENT PRIMARY KEY,"
  ++ line 16 "codigo_de_barras VARCHAR(20) NOT NULL,"
  ++ line 16 "fuero VARCHAR(10),"
  ++ line 16 "juzgado VARCHAR(10),"
  ++ line 16 "zona VARCHAR(10),"
  ++ line 16 "fecha_ingreso VARCHAR(20),"
  ++ line 16 "fecha_asignacion_zona VARCHAR(20),"
  ++ line 16 "fecha_devolucion VARCHAR(20),"
  ++ line 16 "resultado_diligencia VARCHAR(20),"
  ++ line 16 "fecha_disposicion_juzgado VARCHAR(20),"
  ++ line 16 "fecha_registro TIMESTAMP DEFAULT CURRENT_TIMESTAMP"
  ++ line 12 ") ENGINE=InnoDB DEFAULT CHARSET=utf8mb4;"
  ++ spaces 8.

(** The f-string bound to [insert_sql]. *)
Definition insert_sql (tabla : pystr) : pystr :=
  newline
  ++ spaces 12 ++ lit "INSERT INTO " ++ tabla
  ++ lit " (codigo_de_barras, fuero, juzgado, zona," ++ newline
  ++ line 33 "fecha_ingreso, fecha_asignacion_zona,"
  ++ line 33 "fecha_devolucion, resultado_diligencia,"
  ++ line 33 "fecha_disposicion_juzgado)"
  ++ line 12 "VALUES (%(codigo_de_barras)s, %(fuero)s, %(juzgado)s, %(zona)s,"
  ++ line 20 "%(fecha_ingreso)s, %(fecha_asignacion_zona)s,"
  ++ line 20 "%(fecha_devolucion)s, %(resultado_diligencia)s,"
  ++ line 20 "%(fecha_disposicion_juzgado)s)"
  ++ spaces 8.

Definition msg_no_instalado : pystr :=
  lit "mysql-connector-python no est" ++ [225%N]
  ++ lit " instalado. Datos no guardados.".

Definition msg_incompletas : pystr :=
  lit "Variables de entorno de DB incompletas. Datos no guardados.".

Definition msg_guardado : pystr :=
  lit "Registro guardado en base de datos.".

Definition msg_error_guardando (exc : exn) : pystr :=
  lit "Error guardando en la base de datos: " ++ str_exc exc.

(** [cfg] as [guardar_en_bd] builds it from [os.environ]. *)
Definition read_cfg (w : World) : Cfg :=
  {| host := environ w !! "DB_HOST";
     user := environ w !! "DB_USER";
     password := environ w !! "DB_PASSWORD";
     database := environ w !! "DB_NAME" |}.

(** [os.environ.get('DB_TABLE', 'cedulas')] *)
Definition read_tabla (w : World) : pystr :=
  default (lit "cedulas") (environ w !! "DB_TABLE").

(** The [try] block. *)
Definition guardar_try (connector : Driver) (cfg : Cfg) (tabla : pystr)
    (datos : dict) : Py locals () :=
  extern (Connect cfg) (connector_connect connector cfg);;
  assign_conn MySQLConnection;;
  extern CursorOpen (conn_cursor connector);;
  assign_cursor MySQLCursor;;
  extern (Execute (create_table_sql tabla) None)
         (cursor_execute connector (create_table_sql tabla) None);;
  extern (Execute (insert_sql tabla) (Some datos))
         (cursor_execute connector (insert_sql tabla) (Some datos));;
  extern Commit (conn_commit connector);;
  logging INFO msg_guardado.

(** The [finally] block. *)
Definition guardar_finally (connector : Driver) : Py locals () :=
  l ← get_locals;
  match cursor l with
  | Some _ => extern CursorClose (cursor_close connector)
  | None => mret ()
  end;;
  match conn l with
  | Some _ => extern ConnClose (conn_close connector)
  | None => mret ()
  end.

Definition guardar_en_bd_body (w : World) (datos : dict) : Py locals () :=
  match mysql w with
  | None => logging WARNING msg_no_instalado
  | Some connector =>
      let cfg := read_cfg w in
      if negb (all (values cfg)) then logging INFO msg_incompletas
      else
        let tabla := read_tabla w in
        try_finally
          (try_except
             (guardar_try connector cfg tabla datos)
             (fun exc => logging ERROR (msg_error_guardando exc)))
          (guardar_finally connector)
  end.

Definition guardar_en_bd (w : World) (datos : dict) : Eff () :=
  run (guardar_en_bd_body w datos) {| conn := None; cursor := None |}.

(** ** The request handler: [index] *)

Definition msg_debe_ingresar : pystr :=
  lit "Debe ingresar un n" ++ [250%N] ++ lit "mero de c" ++ [243%N]
  ++ lit "digo de barras.".

Definition msg_error_consultar : pystr :=
  lit "Error al consultar la c" ++ [233%N] ++ lit "dula".

Definition msg_error_consultar_exc (exc : exn) : pystr :=
  msg_error_consultar ++ lit ": " ++ str_exc exc.

(** [request.form.get(key, default)] *)
Definition form_get (req : Request) (key : string) (dflt : pystr) : pystr :=
  default dflt (form req !! key).

(** The call [consulta_cedula(codigo, headless=True, timeout=60)]. *)
Definition call_consulta_cedula {S} (w : World) (codigo : pystr)
    (headless : bool) (timeout : Z) : Py S QueryResult :=
  fun s =>
    ([Query codigo headless timeout], s,
     match consulta_cedula w codigo headless timeout with
     | inl estado => Return estado
     | inr exc => Raise exc
     end).

(** The body of [index]; its one local variable that outlives the [try]
    statement is [resultado]. *)
Definition index_body (w : World) (req : Request) : Py (option dict) response :=
  set_locals None;;
  match method req with
  | POST =>
      let codigo := strip (form_get req "codigo" []) in
      match codigo with
      | [] => flash msg_debe_ingresar (lit "error")
      | _ :: _ =>
          try_except
            (estado ← call_consulta_cedula w codigo true 60%Z;
             let resultado := to_dict estado in
             set_locals (Some resultado);;
             call (guardar_en_bd w resultado))
            (fun exc =>
               logging_exception msg_error_consultar exc;;
               flash (msg_error_consultar_exc exc) (lit "error"))
      end
  | GET | HEAD => mret ()
  end;;
  resultado ← get_locals;
  mret (render_template (lit "index.html") resultado).

Definition index (w : World) (req : Request) : Eff response :=
  run (index_body w req) None.

(** ** Observations on traces *)

Definition is_db_op (ev : event) : bool :=
  match ev with
  | Connect _ | CursorOpen | Execute _ _ | Commit | CursorClose | ConnClose => true
  | _ => false
  end.

(** The driver calls of a trace, in order. *)
Definition db_ops (t : list event) : list event := List.filter is_db_op t.

Definition queries (t : list event) : list (pystr * bool * Z) :=
  omap (fun ev => match ev with
                  | Query c h tm => Some (c, h, tm)
                  | _ => None
                  end) t.

(** The flashed messages of a trace, with their categories. *)
Definition flashes (t : list event) : list (pystr * pystr) :=
  omap (fun ev => match ev with
                  | Flash m c => Some (m, c)
                  | _ => None
                  end) t.

Definition logs (t : list event) : list event :=
  List.filter (fun ev => match ev with Log _ _ _ => true | _ => false end) t.

(** ** Vocabulary of the specification *)

(** A configuration value that is set and not the empty string. *)
Definition present (v : option pystr) : Prop :=
  exists c s, v = Some (c :: s).

Definition missing_or_empty (v : option pystr) : Prop :=
  v = None \/ v = Some [].

(** All of [DB_HOST], [DB_USER], [DB_PASSWORD] and [DB_NAME] are present. *)
Definition config_complete (w : World) : Prop :=
  present (environ w !! "DB_HOST") /\ present (environ w !! "DB_USER")
  /\ present (environ w !! "DB_PASSWORD") /\ present (environ w !! "DB_NAME").

(** At least one of the four is missing or empty. *)
Definition config_incomplete (w : World) : Prop :=
  missing_or_empty (environ w !! "DB_HOST")
  \/ missing_or_empty (environ w !! "DB_USER")
  \/ missing_or_empty (environ w !! "DB_PASSWORD")
  \/ missing_or_empty (environ w !! "DB_NAME").

(** The statements and commits of a trace, in order. *)
Definition writes (t : list event) : list event :=
  List.filter (fun ev => match ev with
                         | Execute _ _ | Commit => true
                         | _ => false
                         end) t.

Definition cursor_closes (t : list event) : nat :=
  length (List.filter (fun ev => match ev with CursorClose => true | _ => false end) t).

Definition conn_closes (t : list event) : nat :=
  length (List.filter (fun ev => match ev with ConnClose => true | _ => false end) t).

(** The identifier the handler works with: the form field, trimmed. *)
Definition trimmed_codigo (req : Request) : pystr :=
  strip (form_get req "codigo" []).

(** What the trace gains when the call of the gate raises inside the
    handler's [try] block. *)
Definition gate_aftermath (o : outcome ()) : list event :=
  match o with
  | Return _ => []
  | Raise exc =>
      [Log ERROR msg_error_consultar (Some exc);
       Flash (msg_error_consultar_exc exc) (lit "error")]
  end.

(** The same world with a collaborator that fails with [exc]. *)
Definition with_query_failure (w : World) (exc : exn) : World :=
  {| environ := environ w;
     mysql := mysql w;
     consulta_cedula := fun _ _ _ => inr exc |}.

(** The SQL statements of a trace with their parameters, in order. *)
Definition executes (t : list event) : list (pystr * option dict) :=
  omap (fun ev => match ev with
                  | Execute sql params => Some (sql, params)
                  | _ => None
                  end) t.


(** What the user is shown does not depend on which failure the
    collaborator raised. *)
Definition surfaces_generic_message_only (w : World) (req : Request) : Prop :=
  forall exc1 exc2,
    flashes (index (with_query_failure w exc1) req).1
    = flashes (index (with_query_failure w exc2) req).1.

(** ** Sample worlds and requests *)

Definition driver_ok : Driver :=
  {| connector_connect := fun _ => None;
     conn_cursor := None;
     cursor_execute := fun _ _ => None;
     conn_commit := None;
     cursor_close := None;
     conn_close := None |}.

(** A driver whose [INSERT] raises: only that statement carries
    parameters. *)
Definition driver_insert_raises : Driver :=
  {| connector_connect := fun _ => None;
     conn_cursor := None;
     cursor_execute := fun _ params =>
       match params with
       | Some _ => Some (Exception (lit "Data too long for column"))
       | None => None
       end;
     conn_commit := None;
     cursor_close := None;
     conn_close := None |}.

(** A driver whose [cursor.close()] raises. *)
Definition driver_cursor_close_raises : Driver :=
  {| connector_connect := fun _ => None;
     conn_cursor := None;
     cursor_execute := fun _ _ => None;
     conn_commit := None;
     cursor_close := Some (Exception (lit "MySQL Connection not available."));
     conn_close := None |}.

Definition environ_full : gmap string pystr :=
  <["DB_HOST" := lit "localhost"]>
  (<["DB_USER" := lit "app"]>
  (<["DB_PASSWORD" := lit "secret"]>
  (<["DB_NAME" := lit "csjn"]> ∅))).

(** The record of the scenario in the specification. *)
Definition estado_12345 : QueryResult :=
  {| codigo_de_barras := lit "12345";
     fuero := Some (lit "CIV");
     juzgado := Some (lit "J1");
     zona := Some (lit "Z1");
     fecha_ingreso := Some (lit "2025-01-01");
     fecha_asignacion_zona := Some (lit "2025-01-02");
     fecha_devolucion := Some [];
     resultado_diligencia := Some (lit "PENDIENTE");
     fecha_disposicion_juzgado := Some [] |}.

Definition make_world (env : gmap string pystr) (drv : option Driver) : World :=
  {| environ := env;
     mysql := drv;
     consulta_cedula := fun _ _ _ => inl estado_12345 |}.

Definition world_ok : World := make_world environ_full (Some driver_ok).
Definition world_no_driver : World := make_world environ_full None.
Definition world_no_config : World := make_world ∅ (Some driver_ok).
Definition world_insert_raises : World :=
  make_world environ_full (Some driver_insert_raises).
Definition world_cursor_close_raises : World :=
  make_world environ_full (Some driver_cursor_close_raises).
Definition world_empty_table : World :=
  make_world (<["DB_TABLE" := []]> environ_full) (Some driver_ok).

Definition post (codigo : pystr) : Request :=
  {| method := POST; form := {[ "codigo" := codigo ]} |}.

Definition post_12345 : Request := post (lit " 12345 ").
Definition post_blank : Request := post (32 :: 9 :: 160 :: [])%N.

(** ** Parameter markers *)

(** The text up to the next closing parenthesis. *)
Fixpoint until_paren (s : pystr) : pystr :=
  match s with
  | c :: s' => if (c =? 41)%N then [] else c :: until_paren s'
  | [] => []
  end.

(** The names of the [%(name)s] markers of a statement, in order of
    appearance: what the driver looks up in the parameter mapping. *)
Fixpoint placeholders (s : pystr) : list pystr :=
  match s with
  | c :: s' =>
      match s' with
      | d :: r =>
          if ((c =? 37) && (d =? 40))%N
          then until_paren r :: placeholders s'
          else placeholders s'
      | [] => []
      end
  | [] => []
  end.

(** The keys the docstring of [guardar_en_bd] expects in [datos]. *)
Definition claves_esperadas : list string :=
  ["codigo_de_barras"; "fuero"; "juzgado"; "zona"; "fecha_ingreso";
   "fecha_asignacion_zona"; "fecha_devolucion"; "resultado_diligencia";
   "fecha_disposicion_juzgado"]%string.

(** ** Further sample worlds *)

(** A driver that cannot connect. *)
Definition driver_connect_raises : Driver :=
  {| connector_connect := fun _ => Some (Exception (lit "Access denied"));
     conn_cursor := None;
     cursor_execute := fun _ _ => None;
     conn_commit := None;
     cursor_close := None;
     conn_close := None |}.

(** A driver whose connection gives no cursor. *)
Definition driver_cursor_raises : Driver :=
  {| connector_connect := fun _ => None;
     conn_cursor := Some (Exception (lit "MySQL Connection not available."));
     cursor_execute := fun _ _ => None;
     conn_commit := None;
     cursor_close := None;
     conn_close := None |}.

(** A driver whose [CREATE TABLE] raises: the statement sent without
    parameters. *)
Definition driver_ddl_raises : Driver :=
  {| connector_connect := fun _ => None;
     conn_cursor := None;
     cursor_execute := fun _ params =>
       match params with
       | Some _ => None
       | None => Some (Exception (lit "CREATE command denied"))
       end;
     conn_commit := None;
     cursor_close := None;
     conn_close := None |}.

Definition world_connect_raises : World :=
  make_world environ_full (Some driver_connect_raises).
Definition world_cursor_raises : World :=
  make_world environ_full (Some driver_cursor_raises).
Definition world_ddl_raises : World :=
  make_world environ_full (Some driver_ddl_raises).


(** A GET that carries a [codigo] all the same. *)
Definition get_12345 : Request :=
  {| method := GET; form := {[ "codigo" := lit "12345" ]} |}.

(** ** Proof automation *)

(** Unfolds the monad so that the body computes once the results of the
    driver calls are known. *)
Ltac py_unfold :=
  cbv [run try_finally try_except guardar_try guardar_finally call
       mbind Py_bind mret Py_ret extern emit logging logging_exception flash
       assign_conn assign_cursor get_locals set_locals conn cursor
       call_consulta_cedula fst snd];
  cbn [app].

(** Enters the guarded part of the gate, for a driver [connector] and a
    configuration that passes the test. *)
Ltac gate_enter Hdrv Hcfg :=
  unfold guardar_en_bd, guardar_en_bd_body;
  rewrite Hdrv; cbv zeta; rewrite Hcfg; cbv [negb].

(** Splits on the result of every driver call of the gate. *)
Ltac gate_cases connector w datos :=
  destruct (connector_connect connector (read_cfg w));
  destruct (conn_cursor connector);
  destruct (cursor_execute connector (create_table_sql (read_tabla w)) None);
  destruct (cursor_execute connector (insert_sql (read_tabla w)) (Some datos));
  destruct (conn_commit connector);
  destruct (cursor_close connector);
  destruct (conn_close connector).

(** Walks a decomposition [H : t = pre ++ ev :: post] of a trace that is
    written out, closing the positions where [ev] does not stand. *)
Ltac peel H pre :=
  repeat (destruct pre as [|? pre]; cbn [app] in H;
          [ first [ discriminate H | injection H as <-; auto; fail ]
          | first [ discriminate H | injection H as _ H ] ]).

(** * Properties *)

(** ** [str.strip] *)

Lemma lstrip_all_space (s : pystr) :
  Forall (fun c => py_isspace c = true) s -> lstrip s = [].
Proof.
  induction 1 as [|c s Hc _ IH]; simpl; [reflexivity|].
  now rewrite Hc.
Qed.

Lemma strip_all_space (s : pystr) :
  Forall (fun c => py_isspace c = true) s -> strip s = [].
Proof.
  intros H. unfold strip. now rewrite (lstrip_all_space s H).
Qed.

Lemma lstrip_nil_inv (s : pystr) :
  lstrip s = [] -> Forall (fun c => py_isspace c = true) s.
Proof.
  induction s as [|c s IH]; simpl; [constructor|].
  destruct (py_isspace c) eqn:Hc; [|discriminate].
  intros H. constructor; auto.
Qed.

Lemma strip_nil_inv (s : pystr) :
  strip s = [] -> Forall (fun c => py_isspace c = true) s.
Proof.
  unfold strip, rstrip. intros H.
  assert (Hl : lstrip (rev (lstrip s)) = []).
  { rewrite <- (rev_involutive (lstrip (rev (lstrip s)))), H. reflexivity. }
  apply lstrip_nil_inv in Hl.
  apply lstrip_nil_inv.
  destruct s as [|c s]; [reflexivity|].
  simpl in *. destruct (py_isspace c) eqn:Hc.
  - destruct (lstrip s) as [|d r] eqn:Hs; [reflexivity|].
    exfalso. clear H.
    assert (Hd : py_isspace d = false).
    { clear Hl Hc. induction s as [|x s IH]; simpl in Hs; [discriminate|].
      destruct (py_isspace x) eqn:Hx; [auto|]. congruence. }
    rewrite Forall_forall in Hl. specialize (Hl d).
    rewrite Hl in Hd; [discriminate|].
    apply list_elem_of_In, in_rev. rewrite rev_involutive. now left.
  - exfalso. rewrite Forall_forall in Hl. specialize (Hl c).
    rewrite Hl in Hc; [discriminate|].
    apply list_elem_of_In, in_rev. rewrite rev_involutive. now left.
Qed.

Example strip_ex :
  strip (lit "  12345 ") = lit "12345" /\ strip (9 :: 160 :: lit " ")%N = [].
Proof. split; reflexivity. Qed.


(** ** The configuration test *)

Lemma truthy_present (v : option pystr) : present v -> truthy v = true.
Proof. intros (c & s & ->). reflexivity. Qed.

Lemma truthy_missing_or_empty (v : option pystr) :
  missing_or_empty v -> truthy v = false.
Proof. intros [-> | ->]; reflexivity. Qed.

Lemma all_values_complete (w : World) :
  config_complete w -> all (values (read_cfg w)) = true.
Proof.
  intros (Hh & Hu & Hp & Hd). unfold all, values, read_cfg. simpl.
  now rewrite !truthy_present.
Qed.

Lemma all_values_incomplete (w : World) :
  config_incomplete w -> all (values (read_cfg w)) = false.
Proof.
  unfold all, values, read_cfg. simpl.
  intros [H | [H | [H | H]]]; rewrite (truthy_missing_or_empty _ H);
    rewrite ?andb_false_r; reflexivity.
Qed.

(** ** The persistence gate, case by case *)

Lemma guardar_en_bd_no_driver (w : World) (datos : dict) :
  mysql w = None ->
  guardar_en_bd w datos = ([Log WARNING msg_no_instalado None], Return ()).
Proof.
  intros H. unfold guardar_en_bd, guardar_en_bd_body. now rewrite H.
Qed.

Lemma guardar_en_bd_incomplete (w : World) (connector : Driver) (datos : dict) :
  mysql w = Some connector -> all (values (read_cfg w)) = false ->
  guardar_en_bd w datos = ([Log INFO msg_incompletas None], Return ()).
Proof.
  intros Hd Hc. unfold guardar_en_bd, guardar_en_bd_body.
  rewrite Hd. cbv zeta. now rewrite Hc.
Qed.

Lemma guardar_en_bd_failed_test (w : World) (datos : dict) :
  all (values (read_cfg w)) = false ->
  db_ops (guardar_en_bd w datos).1 = [].
Proof.
  intros Hc. destruct (mysql w) as [connector|] eqn:Hd.
  - now rewrite (guardar_en_bd_incomplete w connector).
  - now rewrite guardar_en_bd_no_driver.
Qed.

(** The gate read the other way: a driver call is made only when all four
    values are present. *)
Lemma guardar_en_bd_write_needs_config (w : World) (datos : dict) :
  db_ops (guardar_en_bd w datos).1 <> [] -> config_complete w.
Proof.
  intros Hops.
  assert (Hdec : forall v, present v \/ missing_or_empty v).
  { intros [[|c s]|]; [right; now right | left; now exists c, s | right; now left]. }
  assert (Hinc : ~ config_incomplete w).
  { intros Hi. apply Hops, guardar_en_bd_failed_test.
    now apply all_values_incomplete. }
  unfold config_complete, config_incomplete in *.
  destruct (Hdec (environ w !! "DB_HOST")), (Hdec (environ w !! "DB_USER")),
    (Hdec (environ w !! "DB_PASSWORD")), (Hdec (environ w !! "DB_NAME"));
    tauto.
Qed.

(** The gate talks to the log and to the driver only. *)
Lemma guardar_en_bd_no_queries (w : World) (datos : dict) :
  queries (guardar_en_bd w datos).1 = [].
Proof.
  destruct (mysql w) as [connector|] eqn:Hd;
    [|now rewrite guardar_en_bd_no_driver].
  destruct (all (values (read_cfg w))) eqn:Hc;
    [|now rewrite (guardar_en_bd_incomplete w connector)].
  gate_enter Hd Hc. py_unfold.
  gate_cases connector w datos; reflexivity.
Qed.

Lemma guardar_en_bd_no_flashes (w : World) (datos : dict) :
  flashes (guardar_en_bd w datos).1 = [].
Proof.
  destruct (mysql w) as [connector|] eqn:Hd;
    [|now rewrite guardar_en_bd_no_driver].
  destruct (all (values (read_cfg w))) eqn:Hc;
    [|now rewrite (guardar_en_bd_incomplete w connector)].
  gate_enter Hd Hc. py_unfold.
  gate_cases connector w datos; reflexivity.
Qed.

(** X2. Failures of connect, cursor, either statement and commit never
    leave [guardar_en_bd]: when neither [close] call raises, the call
    returns normally whatever else the driver does. *)
Lemma guardar_en_bd_returns (w : World) (datos : dict) :
  (forall connector, mysql w = Some connector ->
     cursor_close connector = None /\ conn_close connector = None) ->
  (guardar_en_bd w datos).2 = Return ().
Proof.
  intros Hclose.
  destruct (mysql w) as [connector|] eqn:Hd;
    [|now rewrite guardar_en_bd_no_driver].
  destruct (Hclose connector eq_refl) as [Hcc Hnc].
  destruct (all (values (read_cfg w))) eqn:Hc;
    [|now rewrite (guardar_en_bd_incomplete w connector)].
  gate_enter Hd Hc. py_unfold. rewrite Hcc, Hnc.
  gate_cases connector w datos; reflexivity.
Qed.

(** An exception of [cursor.close()] leaves the gate, and [conn.close()]
    is not reached. *)
Lemma guardar_en_bd_cursor_close_escapes (w : World) (connector : Driver)
    (datos : dict) (exc : exn) :
  mysql w = Some connector -> config_complete w ->
  connector_connect connector (read_cfg w) = None ->
  conn_cursor connector = None ->
  cursor_close connector = Some exc ->
  (guardar_en_bd w datos).2 = Raise exc
  /\ conn_closes (guardar_en_bd w datos).1 = 0.
Proof.
  intros Hd Hc%all_values_complete Hconn Hcur Hcc.
  gate_enter Hd Hc. py_unfold. rewrite Hconn, Hcur, Hcc.
  gate_cases connector w datos; split; reflexivity.
Qed.

(** An exception of [conn.close()] leaves the gate as well. *)
Lemma guardar_en_bd_conn_close_escapes (w : World) (connector : Driver)
    (datos : dict) (exc : exn) :
  mysql w = Some connector -> config_complete w ->
  connector_connect connector (read_cfg w) = None ->
  cursor_close connector = None ->
  conn_close connector = Some exc ->
  (guardar_en_bd w datos).2 = Raise exc.
Proof.
  intros Hd Hc%all_values_complete Hconn Hcc Hnc.
  gate_enter Hd Hc. py_unfold. rewrite Hconn, Hcc, Hnc.
  gate_cases connector w datos; reflexivity.
Qed.

(** ** The request handler, case by case *)

Lemma index_not_post (w : World) (req : Request) :
  method req <> POST ->
  index w req = ([], Return (render_template (lit "index.html") None)).
Proof.
  intros Hm. unfold index, index_body.
  destruct (method req); [reflexivity | reflexivity | congruence].
Qed.

Lemma index_empty_codigo (w : World) (req : Request) :
  method req = POST -> trimmed_codigo req = [] ->
  index w req = ([Flash msg_debe_ingresar (lit "error")],
                 Return (render_template (lit "index.html") None)).
Proof.
  unfold trimmed_codigo. intros Hm Hc. unfold index, index_body.
  rewrite Hm. cbv zeta. rewrite Hc. reflexivity.
Qed.

Lemma index_query_ok (w : World) (req : Request) (estado : QueryResult) :
  method req = POST -> trimmed_codigo req <> [] ->
  consulta_cedula w (trimmed_codigo req) true 60%Z = inl estado ->
  index w req =
    (Query (trimmed_codigo req) true 60%Z
       :: (guardar_en_bd w (to_dict estado)).1
       ++ gate_aftermath (guardar_en_bd w (to_dict estado)).2,
     Return (render_template (lit "index.html") (Some (to_dict estado)))).
Proof.
  unfold trimmed_codigo. intros Hm Hne Hq. unfold index, index_body.
  rewrite Hm. cbv zeta.
  destruct (strip (form_get req "codigo" [])) as [|c cs] eqn:Hc; [congruence|].
  py_unfold. rewrite Hq.
  destruct (guardar_en_bd w (to_dict estado)) as [t [[]|exc]];
    cbn [app gate_aftermath]; now rewrite !app_nil_r.
Qed.

Lemma index_query_raises (w : World) (req : Request) (exc : exn) :
  method req = POST -> trimmed_codigo req <> [] ->
  consulta_cedula w (trimmed_codigo req) true 60%Z = inr exc ->
  index w req =
    ([Query (trimmed_codigo req) true 60%Z;
      Log ERROR msg_error_consultar (Some exc);
      Flash (msg_error_consultar_exc exc) (lit "error")],
     Return (render_template (lit "index.html") None)).
Proof.
  unfold trimmed_codigo. intros Hm Hne Hq. unfold index, index_body.
  rewrite Hm. cbv zeta.
  destruct (strip (form_get req "codigo" [])) as [|c cs] eqn:Hc; [congruence|].
  py_unfold. rewrite Hq. reflexivity.
Qed.

(** X10. No exception leaves the handler: whatever the request, the
    collaborator and the gate do, [index] returns the rendering of
    [index.html]. *)
Lemma index_always_returns (w : World) (req : Request) :
  exists resultado,
    (index w req).2 = Return (render_template (lit "index.html") resultado).
Proof.
  destruct (method req) eqn:Hm;
    try (exists None; rewrite index_not_post; [reflexivity | congruence]).
  destruct (trimmed_codigo req) as [|c cs] eqn:Hc.
  - exists None. now rewrite index_empty_codigo.
  - assert (Hne : trimmed_codigo req <> []) by congruence.
    destruct (consulta_cedula w (trimmed_codigo req) true 60%Z)
      as [estado|exc] eqn:Hq.
    + exists (Some (to_dict estado)). now rewrite (index_query_ok w req estado).
    + exists None. now rewrite (index_query_raises w req exc).
Qed.

(** ** The claims *)

(** C1. The gate is meant to let no exception out, but the [finally]
    block calls [cursor.close()] outside any handler: with a configured
    database whose [cursor.close()] raises, the call of [guardar_en_bd]
    ends by raising that exception, after logging a successful save. *)
Theorem guardar_en_bd_raises_on_cursor_close :
  (guardar_en_bd world_cursor_close_raises (to_dict estado_12345)).2
    = Raise (Exception (lit "MySQL Connection not available."))
  /\ logs (guardar_en_bd world_cursor_close_raises (to_dict estado_12345)).1
    = [Log INFO msg_guardado None].
Proof. split; vm_compute; reflexivity. Qed.

(** C2. When at least one of DB_HOST, DB_USER, DB_PASSWORD and DB_NAME is
    missing or empty, [guardar_en_bd] makes no driver call at all (no
    connect, no statement, no commit, no close) and returns normally. *)
Theorem guardar_en_bd_skips_incomplete_config (w : World) (datos : dict) :
  config_incomplete w ->
  db_ops (guardar_en_bd w datos).1 = []
  /\ (guardar_en_bd w datos).2 = Return ().
Proof.
  intros Hc%all_values_incomplete.
  destruct (mysql w) as [connector|] eqn:Hd.
  - now rewrite (guardar_en_bd_incomplete w connector).
  - now rewrite guardar_en_bd_no_driver.
Qed.

Lemma guardar_en_bd_skips_incomplete_config_witness :
  config_incomplete world_no_config
  /\ db_ops (guardar_en_bd world_no_config (to_dict estado_12345)).1 = []
  /\ (guardar_en_bd world_no_config (to_dict estado_12345)).2 = Return ().
Proof.
  assert (H : config_incomplete world_no_config) by (left; left; reflexivity).
  exact (conj H (guardar_en_bd_skips_incomplete_config
                   world_no_config (to_dict estado_12345) H)).
Defined.

(** C3. A POST whose [codigo] field is missing, empty or made of
    whitespace only: the whole trace of the handler is the one flashed
    validation message, so the collaborator and the gate are not called,
    and the form is rendered with no result. *)
Theorem index_rejects_blank_codigo (w : World) (req : Request) :
  method req = POST ->
  Forall (fun c => py_isspace c = true) (form_get req "codigo" []) ->
  index w req = ([Flash msg_debe_ingresar (lit "error")],
                 Return (render_template (lit "index.html") None))
  /\ queries (index w req).1 = []
  /\ db_ops (index w req).1 = [].
Proof.
  intros Hm Hsp.
  assert (Hi := index_empty_codigo w req Hm (strip_all_space _ Hsp)).
  rewrite Hi. repeat split; reflexivity.
Qed.

Lemma index_rejects_blank_codigo_witness :
  index world_ok post_blank
    = ([Flash msg_debe_ingresar (lit "error")],
       Return (render_template (lit "index.html") None))
  /\ queries (index world_ok post_blank).1 = []
  /\ db_ops (index world_ok post_blank).1 = [].
Proof.
  apply (index_rejects_blank_codigo world_ok post_blank).
  - reflexivity.
  - vm_compute. repeat constructor.
Defined.

(** C4, as stated, fails: the flashed message carries the description of
    the collaborator's exception, so two different failures show the user
    two different messages. *)
Lemma failure_description_reaches_user :
  ~ surfaces_generic_message_only world_ok post_12345.
Proof.
  intros H.
  specialize (H (Exception (lit "timeout")) (Exception (lit "no route to host"))).
  vm_compute in H. discriminate H.
Qed.

(** C4, amended. When the collaborator raises, the handler logs the
    exception, flashes in category [error] the fixed text
    "Error al consultar la cédula: " followed by the description of the
    exception, does not reach the gate, and renders the view with no
    result. *)
Theorem index_flashes_failure_description (w : World) (req : Request)
    (exc : exn) :
  method req = POST -> trimmed_codigo req <> [] ->
  consulta_cedula w (trimmed_codigo req) true 60%Z = inr exc ->
  index w req =
    ([Query (trimmed_codigo req) true 60%Z;
      Log ERROR msg_error_consultar (Some exc);
      Flash (msg_error_consultar ++ lit ": " ++ str_exc exc) (lit "error")],
     Return (render_template (lit "index.html") None)).
Proof. intros Hm Hne Hq. now rewrite (index_query_raises w req exc). Qed.

Lemma index_flashes_failure_description_witness :
  index (with_query_failure world_ok (Exception (lit "timeout"))) post_12345 =
    ([Query (lit "12345") true 60%Z;
      Log ERROR msg_error_consultar (Some (Exception (lit "timeout")));
      Flash (msg_error_consultar ++ lit ": timeout") (lit "error")],
     Return (render_template (lit "index.html") None)).
Proof.
  apply (index_flashes_failure_description
           (with_query_failure world_ok (Exception (lit "timeout")))
           post_12345 (Exception (lit "timeout"))).
  - reflexivity.
  - vm_compute. discriminate.
  - reflexivity.
Defined.

(** C5. After a successful query the view receives the mapping made from
    the collaborator's result, and each of its nine fields holds the
    value of the same field of that result; no other key is added.  This
    holds whatever the gate does afterwards. *)
Theorem index_renders_query_result (w : World) (req : Request)
    (estado : QueryResult) :
  method req = POST -> trimmed_codigo req <> [] ->
  consulta_cedula w (trimmed_codigo req) true 60%Z = inl estado ->
  exists resultado : dict,
    (index w req).2 = Return (render_template (lit "index.html") (Some resultado))
    /\ resultado = to_dict estado
    /\ resultado !! "codigo_de_barras" = Some (Some (codigo_de_barras estado))
    /\ resultado !! "fuero" = Some (fuero estado)
    /\ resultado !! "juzgado" = Some (juzgado estado)
    /\ resultado !! "zona" = Some (zona estado)
    /\ resultado !! "fecha_ingreso" = Some (fecha_ingreso estado)
    /\ resultado !! "fecha_asignacion_zona" = Some (fecha_asignacion_zona estado)
    /\ resultado !! "fecha_devolucion" = Some (fecha_devolucion estado)
    /\ resultado !! "resultado_diligencia" = Some (resultado_diligencia estado)
    /\ resultado !! "fecha_disposicion_juzgado"
       = Some (fecha_disposicion_juzgado estado)
    /\ size resultado = 9.
Proof.
  intros Hm Hne Hq. exists (to_dict estado).
  rewrite (index_query_ok w req estado Hm Hne Hq).
  split; [reflexivity|]. split; [reflexivity|].
  destruct estado; repeat split; vm_compute; reflexivity.
Qed.

Lemma index_renders_query_result_witness :
  exists resultado : dict,
    (index world_cursor_close_raises post_12345).2
      = Return (render_template (lit "index.html") (Some resultado))
    /\ resultado = to_dict estado_12345
    /\ resultado !! "codigo_de_barras" = Some (Some (lit "12345"))
    /\ resultado !! "fuero" = Some (Some (lit "CIV"))
    /\ resultado !! "juzgado" = Some (Some (lit "J1"))
    /\ resultado !! "zona" = Some (Some (lit "Z1"))
    /\ resultado !! "fecha_ingreso" = Some (Some (lit "2025-01-01"))
    /\ resultado !! "fecha_asignacion_zona" = Some (Some (lit "2025-01-02"))
    /\ resultado !! "fecha_devolucion" = Some (Some [])
    /\ resultado !! "resultado_diligencia" = Some (Some (lit "PENDIENTE"))
    /\ resultado !! "fecha_disposicion_juzgado" = Some (Some [])
    /\ size resultado = 9.
Proof.
  apply (index_renders_query_result world_cursor_close_raises post_12345
           estado_12345).
  - reflexivity.
  - vm_compute. discriminate.
  - reflexivity.
Defined.




(** The path the claim singles out: the insert raises, the error is
    logged, and cursor and connection are still closed, in that order. *)
Example guardar_en_bd_insert_raises :
  db_ops (guardar_en_bd world_insert_raises (to_dict estado_12345)).1 =
    [Connect (read_cfg world_insert_raises);
     CursorOpen;
     Execute (create_table_sql (lit "cedulas")) None;
     Execute (insert_sql (lit "cedulas")) (Some (to_dict estado_12345));
     CursorClose;
     ConnClose]
  /\ (guardar_en_bd world_insert_raises (to_dict estado_12345)).2 = Return ().
Proof. split; vm_compute; reflexivity. Qed.

(** X11. When the gate returns, however it fared (saved, skipped, or a
    failure it caught), the handler's response is the result and nothing
    is flashed. *)
Lemma index_unaffected_when_gate_returns (w : World) (req : Request)
    (estado : QueryResult) :
  method req = POST -> trimmed_codigo req <> [] ->
  consulta_cedula w (trimmed_codigo req) true 60%Z = inl estado ->
  (guardar_en_bd w (to_dict estado)).2 = Return () ->
  flashes (index w req).1 = []
  /\ (index w req).2
     = Return (render_template (lit "index.html") (Some (to_dict estado))).
Proof.
  intros Hm Hne Hq Hret.
  rewrite (index_query_ok w req estado Hm Hne Hq), Hret.
  cbn [fst snd gate_aftermath]. rewrite app_nil_r. split; [|reflexivity].
  unfold flashes. cbn [omap list_omap]. apply guardar_en_bd_no_flashes.
Qed.

(** C7. The response is meant not to depend on the gate, but the gate is
    called inside the handler's [try] block and can raise from its
    [finally] block: same request, same successful query, and with a
    [cursor.close()] that raises the user is shown the result together
    with an error message about the query, where the healthy database
    shows the result alone. *)
Theorem index_response_depends_on_gate :
  flashes (index world_ok post_12345).1 = []
  /\ flashes (index world_cursor_close_raises post_12345).1
     = [(msg_error_consultar ++ lit ": MySQL Connection not available.", lit "error")]
  /\ (index world_ok post_12345).2
     = Return (render_template (lit "index.html") (Some (to_dict estado_12345)))
  /\ (index world_cursor_close_raises post_12345).2
     = Return (render_template (lit "index.html") (Some (to_dict estado_12345))).
Proof. repeat split; vm_compute; reflexivity. Qed.

(** C8. With the driver not importable, every call of the gate logs one
    warning and returns, with no driver call of any kind; and a POST whose
    query succeeds still renders the result, with nothing flashed. *)
Theorem guardar_en_bd_without_driver (w : World) :
  mysql w = None ->
  (forall datos,
     guardar_en_bd w datos = ([Log WARNING msg_no_instalado None], Return ()))
  /\ (forall req estado,
        method req = POST -> trimmed_codigo req <> [] ->
        consulta_cedula w (trimmed_codigo req) true 60%Z = inl estado ->
        index w req =
          ([Query (trimmed_codigo req) true 60%Z;
            Log WARNING msg_no_instalado None],
           Return (render_template (lit "index.html") (Some (to_dict estado))))).
Proof.
  intros Hd. split.
  - intros datos. now apply guardar_en_bd_no_driver.
  - intros req estado Hm Hne Hq.
    rewrite (index_query_ok w req estado Hm Hne Hq).
    now rewrite guardar_en_bd_no_driver.
Qed.

Lemma guardar_en_bd_without_driver_witness :
  guardar_en_bd world_no_driver (to_dict estado_12345)
    = ([Log WARNING msg_no_instalado None], Return ())
  /\ index world_no_driver post_12345 =
       ([Query (lit "12345") true 60%Z; Log WARNING msg_no_instalado None],
        Return (render_template (lit "index.html")
                  (Some (to_dict estado_12345)))).
Proof.
  destruct (guardar_en_bd_without_driver world_no_driver eq_refl) as [Hg Hi].
  split.
  - apply Hg.
  - apply (Hi post_12345 estado_12345).
    + reflexivity.
    + vm_compute. discriminate.
    + reflexivity.
Defined.

(** C9. A POST whose trimmed [codigo] is not empty calls the collaborator
    exactly once, with the trimmed identifier, [headless=True] and
    [timeout=60], whatever the collaborator and the gate then do. *)
Theorem index_queries_once (w : World) (req : Request) :
  method req = POST -> trimmed_codigo req <> [] ->
  queries (index w req).1 = [(trimmed_codigo req, true, 60%Z)].
Proof.
  intros Hm Hne.
  destruct (consulta_cedula w (trimmed_codigo req) true 60%Z)
    as [estado|exc] eqn:Hq.
  - rewrite (index_query_ok w req estado Hm Hne Hq).
    cbn [fst]. unfold queries at 1. cbn [omap list_omap].
    fold (queries ((guardar_en_bd w (to_dict estado)).1
                   ++ gate_aftermath (guardar_en_bd w (to_dict estado)).2)).
    unfold queries. rewrite omap_app. fold queries.
    rewrite guardar_en_bd_no_queries.
    now destruct (guardar_en_bd w (to_dict estado)).2.
  - now rewrite (index_query_raises w req exc Hm Hne Hq).
Qed.

Lemma index_queries_once_witness :
  queries (index world_insert_raises post_12345).1
    = [(lit "12345", true, 60%Z)].
Proof.
  apply (index_queries_once world_insert_raises post_12345).
  - reflexivity.
  - vm_compute. discriminate.
Defined.

(** ** The table name *)

(** The text of either statement is the text for the empty name with the
    name copied in, code point for code point, after the keyword. *)
Lemma create_table_sql_splice (tabla : pystr) :
  create_table_sql tabla
  = take 40 (create_table_sql []) ++ tabla ++ drop 40 (create_table_sql []).
Proof. vm_compute. reflexivity. Qed.

Lemma insert_sql_splice (tabla : pystr) :
  insert_sql tabla
  = take 25 (insert_sql []) ++ tabla ++ drop 25 (insert_sql []).
Proof. vm_compute. reflexivity. Qed.

Example sql_heads :
  take 40 (create_table_sql [])
    = newline ++ spaces 12 ++ lit "CREATE TABLE IF NOT EXISTS "
  /\ take 2 (drop 40 (create_table_sql [])) = lit " ("
  /\ take 25 (insert_sql []) = newline ++ spaces 12 ++ lit "INSERT INTO "
  /\ take 19 (drop 25 (insert_sql [])) = lit " (codigo_de_barras,".
Proof. repeat split; reflexivity. Qed.

(** Both statements reach the driver once the connection, the cursor and
    the first statement succeed. *)
Lemma guardar_en_bd_executes_both (w : World) (connector : Driver)
    (datos : dict) :
  mysql w = Some connector -> config_complete w ->
  connector_connect connector (read_cfg w) = None ->
  conn_cursor connector = None ->
  (forall sql, cursor_execute connector sql None = None) ->
  executes (guardar_en_bd w datos).1 =
    [(create_table_sql (read_tabla w), None);
     (insert_sql (read_tabla w), Some datos)].
Proof.
  intros Hd Hc%all_values_complete Hconn Hcur Hddl.
  gate_enter Hd Hc. py_unfold.
  rewrite Hconn, Hcur, (Hddl (create_table_sql (read_tabla w))).
  gate_cases connector w datos; reflexivity.
Qed.



(** DB_TABLE set to the empty string: the statements are sent with no
    table name at all. *)
Example tabla_empty_string :
  world_empty_table.(environ) !! "DB_TABLE" = Some []
  /\ executes (guardar_en_bd world_empty_table (to_dict estado_12345)).1 =
    [([10%N]
     ++ lit "            CREATE TABLE IF NOT EXISTS " ++ [] ++ lit " (" ++ [10%N]
     ++ lit "                id INT AUTO_INCREMENT PRIMARY KEY," ++ [10%N]
     ++ lit "                codigo_de_barras VARCHAR(20) NOT NULL," ++ [10%N]
     ++ lit "                fuero VARCHAR(10)," ++ [10%N]
     ++ lit "                juzgado VARCHAR(10)," ++ [10%N]
     ++ lit "                zona VARCHAR(10)," ++ [10%N]
     ++ lit "                fecha_ingreso VARCHAR(20)," ++ [10%N]
     ++ lit "                fecha_asignacion_zona VARCHAR(20)," ++ [10%N]
     ++ lit "                fecha_devolucion VARCHAR(20)," ++ [10%N]
     ++ lit "                resultado_diligencia VARCHAR(20)," ++ [10%N]
     ++ lit "                fecha_disposicion_juzgado VARCHAR(20)," ++ [10%N]
     ++ lit "                fecha_registro TIMESTAMP DEFAULT CURRENT_TIMESTAMP" ++ [10%N]
     ++ lit "            ) ENGINE=InnoDB DEFAULT CHARSET=utf8mb4;" ++ [10%N]
     ++ lit "        ",
      None);
     ([10%N]
      ++ lit "            INSERT INTO " ++ [] ++ lit " (codigo_de_barras, fuero, juzgado, zona," ++ [10%N]
      ++ lit "                                 fecha_ingreso, fecha_asignacion_zona," ++ [10%N]
      ++ lit "                                 fecha_devolucion, resultado_diligencia," ++ [10%N]
      ++ lit "                                 fecha_disposicion_juzgado)" ++ [10%N]
      ++ lit "            VALUES (%(codigo_de_barras)s, %(fuero)s, %(juzgado)s, %(zona)s," ++ [10%N]
      ++ lit "                    %(fecha_ingreso)s, %(fecha_asignacion_zona)s," ++ [10%N]
      ++ lit "                    %(fecha_devolucion)s, %(resultado_diligencia)s," ++ [10%N]
      ++ lit "                    %(fecha_disposicion_juzgado)s)" ++ [10%N]
      ++ lit "        ",
      Some (to_dict estado_12345))].
Proof.
  split; [reflexivity|].
  rewrite (guardar_en_bd_executes_both world_empty_table driver_ok);
    try reflexivity.
  repeat split; eexists _, _; vm_compute; reflexivity.
Qed.

(** DB_TABLE unset: the name is 'cedulas'. *)
Example tabla_unset :
  world_ok.(environ) !! "DB_TABLE" = None
  /\ executes (guardar_en_bd world_ok (to_dict estado_12345)).1 =
    [([10%N]
     ++ lit "            CREATE TABLE IF NOT EXISTS " ++ lit "cedulas" ++ lit " (" ++ [10%N]
     ++ lit "                id INT AUTO_INCREMENT PRIMARY KEY," ++ [10%N]
     ++ lit "                codigo_de_barras VARCHAR(20) NOT NULL," ++ [10%N]
     ++ lit "                fuero VARCHAR(10)," ++ [10%N]
     ++ lit "                juzgado VARCHAR(10)," ++ [10%N]
     ++ lit "                zona VARCHAR(10)," ++ [10%N]
     ++ lit "                fecha_ingreso VARCHAR(20)," ++ [10%N]
     ++ lit "                fecha_asignacion_zona VARCHAR(20)," ++ [10%N]
     ++ lit "                fecha_devolucion VARCHAR(20)," ++ [10%N]
     ++ lit "                resultado_diligencia VARCHAR(20)," ++ [10%N]
     ++ lit "                fecha_disposicion_juzgado VARCHAR(20)," ++ [10%N]
     ++ lit "                fecha_registro TIMESTAMP DEFAULT CURRENT_TIMESTAMP" ++ [10%N]
     ++ lit "            ) ENGINE=InnoDB DEFAULT CHARSET=utf8mb4;" ++ [10%N]
     ++ lit "        ",
      None);
     ([10%N]
      ++ lit "            INSERT INTO " ++ lit "cedulas" ++ lit " (codigo_de_barras, fuero, juzgado, zona," ++ [10%N]
      ++ lit "                                 fecha_ingreso, fecha_asignacion_zona," ++ [10%N]
      ++ lit "                                 fecha_devolucion, resultado_diligencia," ++ [10%N]
      ++ lit "                                 fecha_disposicion_juzgado)" ++ [10%N]
      ++ lit "            VALUES (%(codigo_de_barras)s, %(fuero)s, %(juzgado)s, %(zona)s," ++ [10%N]
      ++ lit "                    %(fecha_ingreso)s, %(fecha_asignacion_zona)s," ++ [10%N]
      ++ lit "                    %(fecha_devolucion)s, %(resultado_diligencia)s," ++ [10%N]
      ++ lit "                    %(fecha_disposicion_juzgado)s)" ++ [10%N]
      ++ lit "        ",
      Some (to_dict estado_12345))].
Proof.
  split; [reflexivity|].
  rewrite (guardar_en_bd_executes_both world_ok driver_ok);
    try reflexivity.
  repeat split; eexists _, _; vm_compute; reflexivity.
Qed.

(** The default applies to the unset variable only. *)
Example read_tabla_cases :
  read_tabla world_ok = lit "cedulas" /\ read_tabla world_empty_table = [].
Proof. split; reflexivity. Qed.

(** * Further properties of the code *)

(** ** More on [str.strip] *)

Lemma last_rev_head {A} (l : list A) : last (rev l) = head l.
Proof. rewrite rev_alt. apply last_reverse. Qed.

Lemma head_rev_last {A} (l : list A) : head (rev l) = last l.
Proof. rewrite rev_alt. apply head_reverse. Qed.

Lemma lstrip_app_space (p s : pystr) :
  Forall (fun c => py_isspace c = true) p -> lstrip (p ++ s) = lstrip s.
Proof.
  induction 1 as [|c p Hc _ IH]; simpl; [reflexivity|].
  now rewrite Hc.
Qed.

(** [lstrip] removes a run of whitespace from the front and nothing else. *)
Lemma lstrip_split (s : pystr) :
  exists p, s = p ++ lstrip s /\ Forall (fun c => py_isspace c = true) p.
Proof.
  induction s as [|c s (p & Hs & Hp)]; simpl.
  - exists []. split; [reflexivity | constructor].
  - destruct (py_isspace c) eqn:Hc.
    + exists (c :: p). split; [simpl; congruence | now constructor].
    + exists []. split; [reflexivity | constructor].
Qed.

Lemma lstrip_head (s r : pystr) (c : N) :
  lstrip s = c :: r -> py_isspace c = false.
Proof.
  induction s as [|x s IH]; simpl; [discriminate|].
  destruct (py_isspace x) eqn:Hx; [exact IH|].
  intros H. congruence.
Qed.

Lemma lstrip_fixed (s : pystr) (c : N) :
  head s = Some c -> py_isspace c = false -> lstrip s = s.
Proof.
  destruct s as [|x s]; simpl; [discriminate|].
  intros [= ->] ->. reflexivity.
Qed.

Lemma rstrip_app_space (s p : pystr) :
  Forall (fun c => py_isspace c = true) p -> rstrip (s ++ p) = rstrip s.
Proof.
  intros Hp. unfold rstrip. rewrite rev_app_distr, lstrip_app_space;
    [reflexivity|].
  apply Forall_forall. intros x Hx%list_elem_of_In%in_rev%list_elem_of_In.
  revert x Hx. now apply Forall_forall.
Qed.

(** [rstrip] removes a run of whitespace from the back and nothing else. *)
Lemma rstrip_split (s : pystr) :
  exists p, s = rstrip s ++ p /\ Forall (fun c => py_isspace c = true) p.
Proof.
  destruct (lstrip_split (rev s)) as (p & Hs & Hp).
  exists (rev p). split.
  - unfold rstrip. rewrite <- rev_app_distr, <- Hs. now rewrite rev_involutive.
  - apply Forall_forall. intros x Hx%list_elem_of_In%in_rev%list_elem_of_In.
    revert x Hx. now apply Forall_forall.
Qed.

Lemma rstrip_last (s : pystr) (c : N) :
  last (rstrip s) = Some c -> py_isspace c = false.
Proof.
  unfold rstrip. rewrite last_rev_head.
  destruct (lstrip (rev s)) as [|x r] eqn:Hl; simpl; [discriminate|].
  intros [= <-]. exact (lstrip_head _ _ _ Hl).
Qed.

Lemma strip_head (s : pystr) (c : N) :
  head (strip s) = Some c -> py_isspace c = false.
Proof.
  unfold strip. intros Hh.
  destruct (rstrip_split (lstrip s)) as (p & Hs & _).
  destruct (rstrip (lstrip s)) as [|x r] eqn:Hr; simpl in Hh; [discriminate|].
  injection Hh as ->. simpl in Hs. exact (lstrip_head _ _ _ Hs).
Qed.

Lemma strip_last (s : pystr) (c : N) :
  last (strip s) = Some c -> py_isspace c = false.
Proof. apply rstrip_last. Qed.

Lemma strip_fixed (s : pystr) (c d : N) :
  head s = Some c -> py_isspace c = false ->
  last s = Some d -> py_isspace d = false ->
  strip s = s.
Proof.
  intros Hh Hc Hl Hd. unfold strip. rewrite (lstrip_fixed s c Hh Hc).
  unfold rstrip. rewrite (lstrip_fixed (rev s) d).
  - apply rev_involutive.
  - now rewrite head_rev_last.
  - exact Hd.
Qed.

Lemma strip_idempotent (s : pystr) : strip (strip s) = strip s.
Proof.
  destruct (strip s) as [|c r] eqn:Hs; [reflexivity|].
  rewrite <- Hs.
  destruct (last (strip s)) as [d|] eqn:Hl.
  - apply (strip_fixed (strip s) c d); auto.
    + now rewrite Hs.
    + apply (strip_head s). now rewrite Hs.
    + now apply (strip_last s).
  - apply last_None in Hl. congruence.
Qed.

Lemma strip_padding (p1 s p2 : pystr) :
  Forall (fun c => py_isspace c = true) p1 ->
  Forall (fun c => py_isspace c = true) p2 ->
  strip (p1 ++ s ++ p2) = strip s.
Proof.
  intros H1 H2. unfold strip. rewrite (lstrip_app_space p1 _ H1). clear p1 H1.
  induction s as [|c s IH]; simpl.
  - now rewrite (lstrip_all_space p2 H2).
  - destruct (py_isspace c); [exact IH|].
    exact (rstrip_app_space (c :: s) p2 H2).
Qed.

(** ** More on the persistence gate *)

(** X1. Every call of [guardar_en_bd] writes exactly one log line,
    whichever way it ends: the warning, the skip notice, the success
    notice or the error. *)
Theorem guardar_en_bd_logs_once (w : World) (datos : dict) :
  length (logs (guardar_en_bd w datos).1) = 1.
Proof.
  destruct (mysql w) as [connector|] eqn:Hd;
    [|now rewrite guardar_en_bd_no_driver].
  destruct (all (values (read_cfg w))) eqn:Hc;
    [|now rewrite (guardar_en_bd_incomplete w connector)].
  gate_enter Hd Hc. py_unfold.
  gate_cases connector w datos; reflexivity.
Qed.

Lemma guardar_en_bd_returns_witness :
  (guardar_en_bd world_insert_raises (to_dict estado_12345)).2 = Return ().
Proof.
  apply (guardar_en_bd_returns world_insert_raises (to_dict estado_12345)).
  intros connector [= <-]. split; reflexivity.
Defined.

(** X3. With the driver importable and the four values present, the
    notice "Registro guardado en base de datos." is logged exactly when
    connect, cursor, ensure-table, insert and commit all returned. *)
Theorem guardar_en_bd_saved_iff (w : World) (connector : Driver)
    (datos : dict) :
  mysql w = Some connector -> config_complete w ->
  (In (Log INFO msg_guardado None) (guardar_en_bd w datos).1
   <-> connector_connect connector (read_cfg w) = None
       /\ conn_cursor connector = None
       /\ cursor_execute connector (create_table_sql (read_tabla w)) None = None
       /\ cursor_execute connector (insert_sql (read_tabla w)) (Some datos) = None
       /\ conn_commit connector = None).
Proof.
  intros Hd Hc%all_values_complete.
  gate_enter Hd Hc. py_unfold.
  gate_cases connector w datos; cbn [app In]; split.
  all: try (intros _; repeat split; reflexivity).
  all: try (intros (? & ? & ? & ? & ?); discriminate).
  all: try (intros _; auto 10; fail).
  all: intros H; repeat (destruct H as [H|H]; try discriminate H); destruct H.
Qed.

Lemma guardar_en_bd_saved_iff_witness :
  In (Log INFO msg_guardado None)
     (guardar_en_bd world_ok (to_dict estado_12345)).1.
Proof.
  apply (guardar_en_bd_saved_iff world_ok driver_ok (to_dict estado_12345)).
  - reflexivity.
  - repeat split; eexists _, _; vm_compute; reflexivity.
  - repeat split; reflexivity.
Defined.

(** X4. When [connect] raises there is nothing to release: the call logs
    the error with the description of the exception, makes no further
    driver call, not even a [close], and returns. *)
Theorem guardar_en_bd_connect_raises (w : World) (connector : Driver)
    (datos : dict) (exc : exn) :
  mysql w = Some connector -> config_complete w ->
  connector_connect connector (read_cfg w) = Some exc ->
  guardar_en_bd w datos =
    ([Connect (read_cfg w);
      Log ERROR (lit "Error guardando en la base de datos: " ++ str_exc exc) None],
     Return ()).
Proof.
  intros Hd Hc%all_values_complete Hconn.
  gate_enter Hd Hc. py_unfold. rewrite Hconn.
  gate_cases connector w datos; reflexivity.
Qed.

Lemma guardar_en_bd_connect_raises_witness :
  guardar_en_bd world_connect_raises (to_dict estado_12345) =
    ([Connect (read_cfg world_connect_raises);
      Log ERROR (lit "Error guardando en la base de datos: Access denied") None],
     Return ()).
Proof.
  apply (guardar_en_bd_connect_raises world_connect_raises
           driver_connect_raises (to_dict estado_12345)
           (Exception (lit "Access denied"))).
  - reflexivity.
  - repeat split; eexists _, _; vm_compute; reflexivity.
  - reflexivity.
Defined.

(** X5. When the connection is made but [conn.cursor()] raises, no
    statement is sent, the error is logged, the connection is closed and
    no [cursor.close()] is attempted on the cursor that was never bound. *)
Theorem guardar_en_bd_cursor_raises (w : World) (connector : Driver)
    (datos : dict) (exc : exn) :
  mysql w = Some connector -> config_complete w ->
  connector_connect connector (read_cfg w) = None ->
  conn_cursor connector = Some exc ->
  (guardar_en_bd w datos).1 =
    [Connect (read_cfg w);
     CursorOpen;
     Log ERROR (lit "Error guardando en la base de datos: " ++ str_exc exc) None;
     ConnClose].
Proof.
  intros Hd Hc%all_values_complete Hconn Hcur.
  gate_enter Hd Hc. py_unfold. rewrite Hconn, Hcur.
  gate_cases connector w datos; reflexivity.
Qed.

Lemma guardar_en_bd_cursor_raises_witness :
  (guardar_en_bd world_cursor_raises (to_dict estado_12345)).1 =
    [Connect (read_cfg world_cursor_raises);
     CursorOpen;
     Log ERROR (lit "Error guardando en la base de datos: MySQL Connection not available.") None;
     ConnClose].
Proof.
  apply (guardar_en_bd_cursor_raises world_cursor_raises
           driver_cursor_raises (to_dict estado_12345)
           (Exception (lit "MySQL Connection not available."))).
  - reflexivity.
  - repeat split; eexists _, _; vm_compute; reflexivity.
  - reflexivity.
  - reflexivity.
Defined.

(** X6. When the ensure-table statement raises, the insert and the commit
    are not issued: the only statement of the call is the [CREATE TABLE],
    and the one log line is the error with the exception's description. *)
Theorem guardar_en_bd_ddl_raises (w : World) (connector : Driver)
    (datos : dict) (exc : exn) :
  mysql w = Some connector -> config_complete w ->
  connector_connect connector (read_cfg w) = None ->
  conn_cursor connector = None ->
  cursor_execute connector (create_table_sql (read_tabla w)) None = Some exc ->
  writes (guardar_en_bd w datos).1
    = [Execute (create_table_sql (read_tabla w)) None]
  /\ logs (guardar_en_bd w datos).1
    = [Log ERROR (lit "Error guardando en la base de datos: " ++ str_exc exc)
         None].
Proof.
  intros Hd Hc%all_values_complete Hconn Hcur Hddl.
  gate_enter Hd Hc. py_unfold. rewrite Hconn, Hcur, Hddl.
  gate_cases connector w datos; split; reflexivity.
Qed.

Lemma guardar_en_bd_ddl_raises_witness :
  writes (guardar_en_bd world_ddl_raises (to_dict estado_12345)).1
    = [Execute (create_table_sql (lit "cedulas")) None]
  /\ logs (guardar_en_bd world_ddl_raises (to_dict estado_12345)).1
    = [Log ERROR
         (lit "Error guardando en la base de datos: CREATE command denied")
         None].
Proof.
  apply (guardar_en_bd_ddl_raises world_ddl_raises driver_ddl_raises
           (to_dict estado_12345) (Exception (lit "CREATE command denied"))).
  - reflexivity.
  - repeat split; eexists _, _; vm_compute; reflexivity.
  - reflexivity.
  - reflexivity.
  - reflexivity.
Defined.

(** X7. The gate opens exactly when it can: a driver call is made if and
    only if the driver was imported and the four values are all present;
    and then the first call is [connect], with the four values as read
    from the environment. *)
Theorem guardar_en_bd_attempts_iff (w : World) (datos : dict) :
  (db_ops (guardar_en_bd w datos).1 <> []
   <-> (exists connector, mysql w = Some connector) /\ config_complete w)
  /\ (forall ev, head (db_ops (guardar_en_bd w datos).1) = Some ev ->
        ev = Connect {| host := environ w !! "DB_HOST";
                        user := environ w !! "DB_USER";
                        password := environ w !! "DB_PASSWORD";
                        database := environ w !! "DB_NAME" |}).
Proof.
  split; [split|].
  - intros Hops. split; [|exact (guardar_en_bd_write_needs_config w datos Hops)].
    destruct (mysql w) as [connector|] eqn:Hd; [now exists connector|].
    now rewrite guardar_en_bd_no_driver in Hops.
  - intros [[connector Hd] Hc%all_values_complete].
    gate_enter Hd Hc. py_unfold.
    gate_cases connector w datos; discriminate.
  - destruct (mysql w) as [connector|] eqn:Hd;
      [|rewrite guardar_en_bd_no_driver by assumption; discriminate].
    destruct (all (values (read_cfg w))) eqn:Hc;
      [|rewrite (guardar_en_bd_incomplete w connector) by assumption;
        discriminate].
    gate_enter Hd Hc. py_unfold.
    gate_cases connector w datos; intros ev [= <-]; reflexivity.
Qed.

Lemma guardar_en_bd_attempts_iff_witness :
  db_ops (guardar_en_bd world_connect_raises (to_dict estado_12345)).1 <> [] /\
  head (db_ops (guardar_en_bd world_connect_raises (to_dict estado_12345)).1)
    = Some (Connect {| host := Some (lit "localhost");
                       user := Some (lit "app");
                       password := Some (lit "secret");
                       database := Some (lit "csjn") |}).
Proof.
  destruct (guardar_en_bd_attempts_iff world_connect_raises
              (to_dict estado_12345)) as [[_ Hw] Hh].
  split.
  - apply Hw. split; [now exists driver_connect_raises|].
    repeat split; eexists _, _; vm_compute; reflexivity.
  - reflexivity.
Defined.

(** X8. Nothing is done on a closed handle: in every call, no driver call
    follows [conn.close()], only [conn.close()] can follow
    [cursor.close()], and each of the two is called at most once. *)
Theorem guardar_en_bd_closes_last (w : World) (datos : dict) :
  (forall pre post,
     db_ops (guardar_en_bd w datos).1 = pre ++ ConnClose :: post -> post = [])
  /\ (forall pre post,
        db_ops (guardar_en_bd w datos).1 = pre ++ CursorClose :: post ->
        post = [] \/ post = [ConnClose])
  /\ cursor_closes (guardar_en_bd w datos).1 <= 1
  /\ conn_closes (guardar_en_bd w datos).1 <= 1.
Proof.
  destruct (mysql w) as [connector|] eqn:Hd.
  2: { rewrite guardar_en_bd_no_driver by assumption.
       repeat split; try (intros pre post H; peel H pre); cbn; lia. }
  destruct (all (values (read_cfg w))) eqn:Hc.
  2: { rewrite (guardar_en_bd_incomplete w connector) by assumption.
       repeat split; try (intros pre post H; peel H pre); cbn; lia. }
  gate_enter Hd Hc. py_unfold.
  gate_cases connector w datos;
    cbv [db_ops cursor_closes conn_closes List.filter is_db_op length app];
    (split; [intros pre post H; peel H pre|]);
    (split; [intros pre post H; peel H pre|]);
    split; lia.
Qed.

(** The only statement sent with parameters is the insert, and its
    parameters are the mapping the gate was given. *)
Lemma guardar_en_bd_executes_params (w : World) (datos : dict)
    (sql : pystr) (params : dict) :
  In (sql, Some params) (executes (guardar_en_bd w datos).1) ->
  sql = insert_sql (read_tabla w) /\ params = datos.
Proof.
  destruct (mysql w) as [connector|] eqn:Hd;
    [|rewrite guardar_en_bd_no_driver by assumption; intros []].
  destruct (all (values (read_cfg w))) eqn:Hc;
    [|rewrite (guardar_en_bd_incomplete w connector) by assumption; intros []].
  gate_enter Hd Hc. py_unfold.
  gate_cases connector w datos; cbv [executes omap list_omap app In];
    intros H; repeat (destruct H as [H|H]; try discriminate H);
    try contradiction; injection H as <- <-; split; reflexivity.
Qed.

Lemma db_ops_app (t1 t2 : list event) :
  db_ops (t1 ++ t2) = db_ops t1 ++ db_ops t2.
Proof. unfold db_ops. apply List.filter_app. Qed.

Lemma db_ops_gate_aftermath (o : outcome ()) : db_ops (gate_aftermath o) = [].
Proof. now destruct o. Qed.

Lemma executes_app (t1 t2 : list event) :
  executes (t1 ++ t2) = executes t1 ++ executes t2.
Proof. apply omap_app. Qed.

Lemma executes_gate_aftermath (o : outcome ()) :
  executes (gate_aftermath o) = [].
Proof. now destruct o. Qed.

(** ** More on the request handler *)

(** X9. A request that is not a POST has no effect at all, even when it
    carries a [codigo]: no query, no driver call, no log line, nothing
    flashed; the form is rendered with no result. *)
Theorem index_get_renders_empty_form (w : World) (req : Request) :
  method req <> POST ->
  index w req = ([], Return (render_template (lit "index.html") None)).
Proof.
  intros Hm. unfold index, index_body.
  destruct (method req); [reflexivity | reflexivity | now destruct Hm].
Qed.

Lemma index_get_renders_empty_form_witness :
  index world_ok get_12345
    = ([], Return (render_template (lit "index.html") None)).
Proof.
  apply (index_get_renders_empty_form world_ok get_12345).
  vm_compute. discriminate.
Defined.

Lemma index_unaffected_when_gate_returns_witness :
  flashes (index world_insert_raises post_12345).1 = []
  /\ (index world_insert_raises post_12345).2
     = Return (render_template (lit "index.html")
                 (Some (to_dict estado_12345))).
Proof.
  apply (index_unaffected_when_gate_returns world_insert_raises post_12345
           estado_12345).
  - reflexivity.
  - vm_compute. discriminate.
  - reflexivity.
  - vm_compute. reflexivity.
Defined.

(** X12. What is stored is what is shown: after a successful query, any
    statement the handler's call sends to the database with parameters is
    the insert, and its parameters are the very mapping given to the
    template. *)
Theorem index_stores_what_it_renders (w : World) (req : Request)
    (estado : QueryResult) (sql : pystr) (params : dict) :
  method req = POST -> trimmed_codigo req <> [] ->
  consulta_cedula w (trimmed_codigo req) true 60%Z = inl estado ->
  In (sql, Some params) (executes (index w req).1) ->
  sql = insert_sql (read_tabla w)
  /\ (index w req).2
     = Return (render_template (lit "index.html") (Some params)).
Proof.
  intros Hm Hne Hq. rewrite (index_query_ok w req estado Hm Hne Hq).
  cbn [fst snd].
  change (Query (trimmed_codigo req) true 60%Z
            :: (guardar_en_bd w (to_dict estado)).1
            ++ gate_aftermath (guardar_en_bd w (to_dict estado)).2)
    with ([Query (trimmed_codigo req) true 60%Z]
            ++ (guardar_en_bd w (to_dict estado)).1
            ++ gate_aftermath (guardar_en_bd w (to_dict estado)).2).
  rewrite !executes_app, executes_gate_aftermath, app_nil_r.
  intros Hin. cbn [executes omap list_omap app] in Hin.
  apply guardar_en_bd_executes_params in Hin as [-> ->]. now split.
Qed.

Example executes_index_world_ok :
  executes (index world_ok post_12345).1 =
    [(create_table_sql (lit "cedulas"), None);
     (insert_sql (lit "cedulas"), Some (to_dict estado_12345))].
Proof.
  vm_cast_no_check (eq_refl (executes (index world_ok post_12345).1)).
Qed.

Lemma index_stores_what_it_renders_witness :
  insert_sql (lit "cedulas") = insert_sql (read_tabla world_ok)
  /\ (index world_ok post_12345).2
     = Return (render_template (lit "index.html")
                 (Some (to_dict estado_12345))).
Proof.
  apply (index_stores_what_it_renders world_ok post_12345 estado_12345
           (insert_sql (lit "cedulas")) (to_dict estado_12345)).
  - reflexivity.
  - vm_compute. discriminate.
  - reflexivity.
  - rewrite executes_index_world_ok. right. left. reflexivity.
Defined.

(** X13. The database is touched only after a successful query: if the
    handler's call makes any driver call, the request was a POST with a
    non-empty trimmed [codigo], the collaborator returned a result, and
    the driver calls are those of the one call of the gate on that
    result's mapping. *)
Theorem index_persists_only_after_query (w : World) (req : Request) :
  db_ops (index w req).1 <> [] ->
  method req = POST /\ trimmed_codigo req <> []
  /\ exists estado,
       consulta_cedula w (trimmed_codigo req) true 60%Z = inl estado
       /\ db_ops (index w req).1
          = db_ops (guardar_en_bd w (to_dict estado)).1.
Proof.
  intros Hops.
  destruct (method req) eqn:Hm;
    try (rewrite index_not_post in Hops by congruence; now destruct Hops).
  destruct (trimmed_codigo req) as [|c cs] eqn:Hc;
    [rewrite index_empty_codigo in Hops by assumption; now destruct Hops|].
  assert (Hne : trimmed_codigo req <> []) by congruence.
  rewrite <- Hc.
  destruct (consulta_cedula w (trimmed_codigo req) true 60%Z)
    as [estado|exc] eqn:Hq;
    [|rewrite (index_query_raises w req exc) in Hops by assumption;
      now destruct Hops].
  repeat split; [exact Hne|]. exists estado. split; [reflexivity|].
  rewrite (index_query_ok w req estado Hm Hne Hq). cbn [fst].
  change (Query (trimmed_codigo req) true 60%Z
            :: (guardar_en_bd w (to_dict estado)).1
            ++ gate_aftermath (guardar_en_bd w (to_dict estado)).2)
    with ([Query (trimmed_codigo req) true 60%Z]
            ++ (guardar_en_bd w (to_dict estado)).1
            ++ gate_aftermath (guardar_en_bd w (to_dict estado)).2).
  now rewrite !db_ops_app, db_ops_gate_aftermath, app_nil_r.
Qed.

Lemma index_persists_only_after_query_witness :
  method post_12345 = POST /\ trimmed_codigo post_12345 <> []
  /\ exists estado,
       consulta_cedula world_ok (trimmed_codigo post_12345) true 60%Z
         = inl estado
       /\ db_ops (index world_ok post_12345).1
          = db_ops (guardar_en_bd world_ok (to_dict estado)).1.
Proof.
  apply (index_persists_only_after_query world_ok post_12345).
  vm_compute. discriminate.
Defined.

(** The collaborator calls of a handler's call: none, or the one call
    with the trimmed, non-empty [codigo]. *)
Lemma queries_index_cases (w : World) (req : Request) :
  queries (index w req).1 = []
  \/ (trimmed_codigo req <> []
      /\ queries (index w req).1 = [(trimmed_codigo req, true, 60%Z)]).
Proof.
  destruct (method req) eqn:Hm;
    try (left; rewrite index_not_post; [reflexivity | congruence]).
  destruct (trimmed_codigo req) as [|c cs] eqn:Hc;
    [left; now rewrite index_empty_codigo|].
  right. rewrite <- Hc.
  assert (Hne : trimmed_codigo req <> []) by congruence.
  split; [exact Hne|].
  destruct (consulta_cedula w (trimmed_codigo req) true 60%Z)
    as [estado|exc] eqn:Hq.
  - rewrite (index_query_ok w req estado Hm Hne Hq). cbn [fst].
    change (Query (trimmed_codigo req) true 60%Z
              :: (guardar_en_bd w (to_dict estado)).1
              ++ gate_aftermath (guardar_en_bd w (to_dict estado)).2)
      with ([Query (trimmed_codigo req) true 60%Z]
              ++ (guardar_en_bd w (to_dict estado)).1
              ++ gate_aftermath (guardar_en_bd w (to_dict estado)).2).
    unfold queries. rewrite !omap_app. fold queries.
    rewrite guardar_en_bd_no_queries.
    now destruct (guardar_en_bd w (to_dict estado)).2.
  - now rewrite (index_query_raises w req exc Hm Hne Hq).
Qed.

(** X14. The collaborator is never handed a blank or padded identifier:
    whatever the request, an identifier passed to [consulta_cedula] is
    not empty, begins and ends with a code point that is not whitespace,
    and trimming it again changes nothing. *)
Theorem index_query_argument_trimmed (w : World) (req : Request)
    (codigo : pystr) (headless : bool) (timeout : Z) :
  In (codigo, headless, timeout) (queries (index w req).1) ->
  codigo <> []
  /\ strip codigo = codigo
  /\ (exists c, head codigo = Some c /\ py_isspace c = false)
  /\ (exists c, last codigo = Some c /\ py_isspace c = false).
Proof.
  destruct (queries_index_cases w req) as [-> | [Hne ->]]; [intros []|].
  intros [[= <- _ _] | []]. unfold trimmed_codigo in *.
  split; [exact Hne|]. split; [apply strip_idempotent|]. split.
  - destruct (strip (form_get req "codigo" [])) as [|c r] eqn:Hs;
      [congruence|].
    exists c. split; [reflexivity|]. apply (strip_head (form_get req "codigo" [])).
    now rewrite Hs.
  - destruct (last (strip (form_get req "codigo" []))) as [c|] eqn:Hl.
    + exists c. split; [reflexivity|]. now apply strip_last in Hl.
    + apply last_None in Hl. congruence.
Qed.

Lemma index_query_argument_trimmed_witness :
  lit "12345" <> []
  /\ strip (lit "12345") = lit "12345"
  /\ (exists c, head (lit "12345") = Some c /\ py_isspace c = false)
  /\ (exists c, last (lit "12345") = Some c /\ py_isspace c = false).
Proof.
  apply (index_query_argument_trimmed world_cursor_raises post_12345
           (lit "12345") true 60%Z).
  left. reflexivity.
Defined.

(** X15. Whitespace around the submitted [codigo] makes no difference:
    the handler does the same, to the last event, for a field value and
    for that value with whitespace added before and after, whatever the
    method and the other fields of the form. *)
Theorem index_ignores_padding (w : World) (m : http_method)
    (f : gmap string pystr) (p1 s p2 : pystr) :
  Forall (fun c => py_isspace c = true) p1 ->
  Forall (fun c => py_isspace c = true) p2 ->
  index w {| method := m; form := <["codigo" := p1 ++ s ++ p2]> f |}
  = index w {| method := m; form := <["codigo" := s]> f |}.
Proof.
  intros H1 H2.
  assert (Hget : forall v,
            form_get {| method := m; form := <["codigo" := v]> f |} "codigo" []
            = v).
  { intros v. unfold form_get. cbn [form]. now rewrite lookup_insert_eq. }
  unfold index, index_body. rewrite !Hget.
  now rewrite (strip_padding p1 s p2 H1 H2).
Qed.

Lemma index_ignores_padding_witness :
  index world_ok
    {| method := POST;
       form := <["codigo" := [32; 9]%N ++ lit "12345" ++ [10%N]]> ∅ |}
  = index world_ok {| method := POST; form := <["codigo" := lit "12345"]> ∅ |}.
Proof.
  apply (index_ignores_padding world_ok POST ∅ [32; 9]%N (lit "12345")
           [10%N]); repeat constructor.
Defined.

(** ** The insert statement and its parameters *)

Lemma placeholders_skip (a b : pystr) :
  Forall (fun c => c <> 37%N) a -> placeholders (a ++ b) = placeholders b.
Proof.
  induction 1 as [|c a Hc _ IH]; [reflexivity|].
  cbn [app placeholders].
  destruct (a ++ b) as [|d r] eqn:Hab.
  - destruct a; [|discriminate]. cbn [app] in Hab. now subst b.
  - rewrite <- IH. apply N.eqb_neq in Hc. now rewrite Hc.
Qed.

(** X16. The insert binds exactly the nine expected keys: for a table
    name without a percent sign, the [%(name)s] markers of the statement
    are the nine keys named in the docstring, once each and in the order
    of the column list, and they are exactly the keys of the mapping the
    handler passes, so no marker is left without a value. *)
Theorem insert_sql_binds_expected_keys (tabla : pystr)
    (estado : QueryResult) :
  Forall (fun c => c <> 37%N) tabla ->
  placeholders (insert_sql tabla) = map lit claves_esperadas
  /\ dom (to_dict estado) = list_to_set claves_esperadas
  /\ NoDup claves_esperadas.
Proof.
  intros Htabla. split; [|split].
  - rewrite insert_sql_splice.
    rewrite placeholders_skip by (vm_compute; repeat constructor; discriminate).
    rewrite placeholders_skip by exact Htabla.
    vm_compute. reflexivity.
  - unfold to_dict. rewrite !dom_insert_L, dom_empty_L. reflexivity.
  - apply (bool_decide_unpack _). vm_compute. exact I.
Qed.

Lemma insert_sql_binds_expected_keys_witness :
  placeholders (insert_sql (lit "cedulas")) = map lit claves_esperadas
  /\ dom (to_dict estado_12345) = list_to_set claves_esperadas
  /\ NoDup claves_esperadas.
Proof.
  apply (insert_sql_binds_expected_keys (lit "cedulas") estado_12345).
  vm_compute. repeat constructor; discriminate.
Defined.

(** ** The validation message *)

Lemma flashes_app (t1 t2 : list event) :
  flashes (t1 ++ t2) = flashes t1 ++ flashes t2.
Proof. apply omap_app. Qed.

(** The validation text is not the text of any error message. *)
Lemma msg_debe_ingresar_not_error (exc : exn) :
  msg_error_consultar_exc exc <> msg_debe_ingresar.
Proof.
  unfold msg_error_consultar_exc, msg_error_consultar, msg_debe_ingresar.
  cbn. discriminate.
Qed.

(** X17. The validation message "Debe ingresar un número de código de
    barras." is flashed exactly for a POST whose [codigo] field is
    missing, empty or made of whitespace only, and for no other request,
    whatever the collaborator and the gate do. *)
Theorem index_validation_iff (w : World) (req : Request) :
  In (msg_debe_ingresar, lit "error") (flashes (index w req).1)
  <-> method req = POST
      /\ Forall (fun c => py_isspace c = true) (form_get req "codigo" []).
Proof.
  split.
  - intros Hin.
    destruct (method req) eqn:Hm;
      try (rewrite index_not_post in Hin by congruence; now destruct Hin).
    split; [reflexivity|].
    destruct (trimmed_codigo req) as [|c cs] eqn:Hc;
      [now apply strip_nil_inv|].
    assert (Hne : trimmed_codigo req <> []) by congruence.
    exfalso.
    destruct (consulta_cedula w (trimmed_codigo req) true 60%Z)
      as [estado|exc] eqn:Hq.
    + rewrite (index_query_ok w req estado Hm Hne Hq) in Hin. cbn [fst] in Hin.
      change (Query (trimmed_codigo req) true 60%Z
                :: (guardar_en_bd w (to_dict estado)).1
                ++ gate_aftermath (guardar_en_bd w (to_dict estado)).2)
        with ([Query (trimmed_codigo req) true 60%Z]
                ++ (guardar_en_bd w (to_dict estado)).1
                ++ gate_aftermath (guardar_en_bd w (to_dict estado)).2) in Hin.
      rewrite !flashes_app, guardar_en_bd_no_flashes in Hin.
      destruct (guardar_en_bd w (to_dict estado)).2 as [[]|exc];
        cbn [gate_aftermath flashes omap list_omap app In] in Hin;
        [exact Hin|].
      destruct Hin as [Hin|[]].
      apply (msg_debe_ingresar_not_error exc). congruence.
    + rewrite (index_query_raises w req exc Hm Hne Hq) in Hin.
      cbn [fst flashes omap list_omap In] in Hin.
      destruct Hin as [Hin|[]].
      apply (msg_debe_ingresar_not_error exc). congruence.
  - intros [Hm Hsp].
    rewrite (index_empty_codigo w req Hm (strip_all_space _ Hsp)).
    left. reflexivity.
Qed.

Lemma index_validation_iff_witness :
  In (msg_debe_ingresar, lit "error") (flashes (index world_ok post_blank).1).
Proof.
  apply (index_validation_iff world_ok post_blank).
  split; [reflexivity|]. vm_compute. repeat constructor.
Defined.
